(** * eam-utility: the trust store of ESX Agent Manager

    A shallow embedding of [eam-utility.py] and the properties of its trust
    operations ([install-cert], [uninstall-cert], [disable-trust],
    [enable-trust], [clear-trust]).

    Python values coming out of [json.load] are an inductive type whose
    dictionaries are finite maps; the trust file, the log, the console and the
    network are explicit: the file is the state of a small state-and-exception
    monad, every external call leaves an event in a trace, and what the
    libraries outside of the script answer (urlparse, the TLS handshake, the
    prompt, the operating system) is read from an environment record.

    Conventions of the model:
    - strings are byte strings, and [lower] moves the letters A to Z only;
    - the state holds one file, the one at [args.trust_file];
    - the text of the file is identified with the value that [json.load]
      reads from it, so that a value written by [json.dump] is read back
      unchanged; text that [json.load] rejects is kept apart;
    - a failing [open] or [chmod] is an answer of the environment, not a
      consequence of the mode of the file. *)

From Stdlib Require Import ZArith String Ascii List Bool Lia.
From stdpp Require Import base option gmap strings list fin_maps.

Local Open Scope string_scope.
Local Open Scope Z_scope.

Set Warnings "-register-all".

(** ** Python values *)

(** What [json.load] can return.  A number keeps its literal: the script never
    computes with one. *)
Inductive pyval :=
| PNone
| PBool (b : bool)
| PNum (literal : string)
| PStr (s : string)
| PList (l : list pyval)
| PDict (d : gmap string pyval).

(** The exceptions that the script can meet. *)
Inductive exn :=
| NameError | UnboundLocalError | TypeError | KeyError | ValueError
| OSError | EOFError.

(** [v == s] for a string [s]: a value of another type is never equal to it. *)
Definition py_eq_str (v : pyval) (s : string) : bool :=
  match v with
  | PStr t => String.eqb t s
  | _ => false
  end.

Definition is_PNone (v : pyval) : bool :=
  match v with
  | PNone => true
  | _ => false
  end.

(** ** Strings *)

(** [str.lower] on byte strings: the letters A to Z move to a to z, every
    other byte stays. *)
Definition ascii_lower (c : ascii) : ascii :=
  let n := N_of_ascii c in
  if ((65 <=? n) && (n <=? 90))%N then ascii_of_N (n + 32) else c.

Fixpoint lower (s : string) : string :=
  match s with
  | EmptyString => EmptyString
  | String c r => String (ascii_lower c) (lower r)
  end.

Definition startswith (s p : string) : bool := String.prefix p s.

(** [p in s] for two strings: [p] occurs in [s]. *)
Fixpoint str_contains (s p : string) : bool :=
  String.prefix p s ||
  match s with
  | EmptyString => false
  | String _ r => str_contains r p
  end.

(** ** Constants of the script *)

Definition _DISABLED_MARKER : string := "AnyCertificate".

(** In seconds. *)
Definition _CERT_GET_TIMEOUT : Z := 10.

(** The constants of the module [stat]. *)
Definition S_IREAD : Z := 256.
Definition S_IWRITE : Z := 128.
Definition S_IRUSR : Z := 256.
Definition S_IWUSR : Z := 128.
Definition S_IXUSR : Z := 64.
Definition S_IRGRP : Z := 32.
Definition S_IWGRP : Z := 16.
Definition S_IXGRP : Z := 8.
Definition S_IROTH : Z := 4.
Definition S_IWOTH : Z := 2.
Definition S_IXOTH : Z := 1.

Definition _TRUST_PERMISSIONS : Z :=
  Z.lor S_IREAD (Z.lor S_IWRITE (Z.lor S_IRUSR (Z.lor S_IWUSR
    (Z.lor S_IRGRP S_IROTH)))).

(** [mode & bit != 0] *)
Definition has_perm (mode bit : Z) : bool := negb (Z.land mode bit =? 0).

Definition _needsTrust (url : option string) : bool :=
  match url with
  | None => false
  | Some url => startswith (lower url) "https://"
  end.
Arguments _needsTrust : simpl never.

(** ** The world outside of the script *)

(** What the trust file holds: text that [json.load] turns into a value (the
    text is then identified with that value, [json.load] after [json.dump]
    giving the value back), or text that [json.load] rejects. *)
Inductive content :=
| Json (v : pyval)
| Malformed (text : string).

Record file := File { f_content : content; f_mode : Z }.

(** The format strings of the log calls, with their arguments. *)
Inductive message :=
| CouldntParseURL (url : string)
| UnableToObtainCertificate (url : string)
| PEMEncoding (url pem : string)
| UserDidNotAgree
| CantMod (path : string)
| DoesntRequireTrust (url : string)
| RemovingPinning (url : string)
| NoPinnedCertificate (url : string)
| AlreadyDisabled (url : string)
| AllowingAccess (url : string)
| RemovingPermission (url : string)
| NotDisabled (url : string)
| ClearingTrust
| TrustNotFound (path : string)
| LoadingTrust (path : string)
| TrustDoesntExist (path : string)
| StoringTrust (path : string).

(** What the script does to the outside, in the order it does it. *)
Inductive event :=
| LogInfo (m : message)
| LogWarning (m : message)
| Exists (path : string)
| OpenRead (path : string)
| OpenWrite (path : string)
| Chmod (path : string) (mode : Z)
| Connect (host : option string) (port timeout : Z)
| Prompt.

(** [parts.port] is a property: it raises [ValueError] on a port that is not
    a number in range. *)
Inductive port_attr :=
| PortRaises
| PortIs (p : option Z).

Record ParseResult := { hostname : option string; port : port_attr }.

(** The answers of the libraries and of the operating system during one run
    of the script.  [None] stands for an exception. *)
Record Env := {
  urlparse : string -> option ParseResult;
  (** [create_connection], [wrap_socket], [getpeercert] and
      [DER_cert_to_PEM_cert] in a row *)
  peer_certificate : option string -> Z -> option string;
  (** the line typed at the prompt *)
  console : option string;
  open_read_ok : bool;
  open_write_ok : bool;
  chmod_ok : bool;
  (** the mode of a file that [open] creates *)
  create_mode : Z
}.

Record Args := { url : string; y : bool; trust_file : string }.

(** ** The monad of the script: state, trace and exceptions *)

Record State := { fs : option file; trace : list event }.

Inductive outcome (A : Type) :=
| Return (a : A)
| Raise (e : exn).
Arguments Return {A} a.
Arguments Raise {A} e.

Definition Py (A : Type) : Type := State -> outcome A * State.

#[global] Instance Py_ret : MRet Py := fun A a st => (Return a, st).

#[global] Instance Py_bind : MBind Py := fun A B f m st =>
  match m st with
  | (Return a, st') => f a st'
  | (Raise e, st') => (Raise e, st')
  end.

Definition raise {A} (e : exn) : Py A := fun st => (Raise e, st).

(** [try: body except: handler], with what the body did before it raised
    kept. *)
Definition try_except {A} (body handler : Py A) : Py A := fun st =>
  match body st with
  | (Return a, st') => (Return a, st')
  | (Raise _, st') => handler st'
  end.

Definition emit (e : event) : Py unit := fun st =>
  (Return tt, {| fs := fs st; trace := trace st ++ [e] |}).

Definition get_file : Py (option file) := fun st => (Return (fs st), st).

Definition put_file (f : file) : Py unit := fun st =>
  (Return tt, {| fs := Some f; trace := trace st |}).

Definition log_info (m : message) : Py unit := emit (LogInfo m).
Definition log_warning (m : message) : Py unit := emit (LogWarning m).

(** Reading a local variable that an earlier branch may have left unset. *)
Definition local {A} (x : option A) : Py A :=
  match x with
  | Some a => mret a
  | None => raise UnboundLocalError
  end.

(** Reading a name that the module does not define. *)
Definition undefined_name {A} (name : string) : Py A := raise NameError.

Definition run {A} (m : Py A) (f : option file) : outcome A * State :=
  m {| fs := f; trace := [] |}.

(** ** The operations of Python that the script applies to the store *)

(** [key in trust] *)
Definition py_contains (trust : pyval) (key : string) : Py bool :=
  match trust with
  | PDict d => mret (bool_decide (is_Some (d !! key)))
  | PList l => mret (existsb (fun v => py_eq_str v key) l)
  | PStr s => mret (str_contains s key)
  | PNone | PBool _ | PNum _ => raise TypeError
  end.

(** [trust[key]] *)
Definition py_getitem (trust : pyval) (key : string) : Py pyval :=
  match trust with
  | PDict d =>
      match d !! key with
      | Some v => mret v
      | None => raise KeyError
      end
  | _ => raise TypeError
  end.

(** [trust[key] = v] *)
Definition py_setitem (trust : pyval) (key : string) (v : pyval) : Py pyval :=
  match trust with
  | PDict d => mret (PDict (<[key:=v]> d))
  | _ => raise TypeError
  end.

(** [del trust[key]] *)
Definition py_delitem (trust : pyval) (key : string) : Py pyval :=
  match trust with
  | PDict d =>
      match d !! key with
      | Some _ => mret (PDict (delete key d))
      | None => raise KeyError
      end
  | _ => raise TypeError
  end.

(** [os.path.exists] *)
Definition exists_ (path : string) : Py bool :=
  emit (Exists path);;
  f ← get_file;
  mret (bool_decide (is_Some f)).

(** ** The functions of the script *)

Definition _readTrust (env : Env) (args : Args) : Py pyval :=
  e ← exists_ (trust_file args);
  if e : bool then
    log_info (LoadingTrust (trust_file args));;
    emit (OpenRead (trust_file args));;
    f ← get_file;
    match f with
    | Some f =>
        if open_read_ok env then
          match f_content f with
          | Json trust => mret trust
          | Malformed _ => raise ValueError
          end
        else raise OSError
    | None => raise OSError
    end
  else
    log_info (TrustDoesntExist (trust_file args));;
    mret PNone.

Definition _storeTrust (env : Env) (args : Args) (trust : pyval) : Py unit :=
  log_info (StoringTrust (trust_file args));;
  emit (OpenWrite (trust_file args));;
  f ← get_file;
  (if open_write_ok env then
     put_file (File (Json trust)
                 (match f with
                  | Some f => f_mode f
                  | None => create_mode env
                  end))
   else raise OSError);;
  emit (Chmod (trust_file args) _TRUST_PERMISSIONS);;
  (if chmod_ok env then put_file (File (Json trust) _TRUST_PERMISSIONS)
   else raise OSError).

(** The connection and the handshake of [_installCert], with the port that
    defaults to 443. *)
Definition fetch_certificate (env : Env) (parts : ParseResult) : Py string :=
  p ← match port parts with
      | PortRaises => raise ValueError
      | PortIs None => mret 443
      | PortIs (Some p) => mret p
      end;
  emit (Connect (hostname parts) p _CERT_GET_TIMEOUT);;
  match peer_certificate env (hostname parts) p with
  | Some pem => mret pem
  | None => raise OSError
  end.

Definition inFnc (env : Env) : Py string :=
  emit Prompt;;
  match console env with
  | Some answer => mret answer
  | None => raise EOFError
  end.

Definition store_or_empty (trust : pyval) : pyval :=
  if is_PNone trust then PDict ∅ else trust.

Definition _installCert (env : Env) (args : Args) : Py Z :=
  let rc := 0 in
  let url := url args in
  if _needsTrust (Some url) then
    '(rc, parts) ←
      try_except
        (match urlparse env url with
         | Some parts => mret (rc, Some parts)
         | None => raise ValueError
         end)
        (log_warning (CouldntParseURL url);; mret (1, None));
    '(rc, x509Cert) ←
      (if rc =? 0 then
         try_except
           (parts ← local parts;
            x509Cert ← fetch_certificate env parts;
            mret (rc, Some x509Cert))
           (_ ← undefined_name (A := unit) "self";
            log_warning (UnableToObtainCertificate url);;
            mret (1, None))
       else mret (rc, None));
    rc ←
      (if (rc =? 0) && negb (y args) then
         pem ← local x509Cert;
         log_info (PEMEncoding url pem);;
         answer ← inFnc env;
         if negb (String.eqb (lower answer) "y") then
           log_info UserDidNotAgree;; mret 1
         else mret rc
       else mret rc);
    (if rc =? 0 then
       try_except
         (trust ← _readTrust env args;
          let trust := store_or_empty trust in
          pem ← local x509Cert;
          trust ← py_setitem trust url (PStr pem);
          _storeTrust env args trust;;
          mret rc)
         (log_warning (CantMod (trust_file args));; mret 1)
     else mret rc)
  else
    log_info (DoesntRequireTrust url);;
    mret rc.

Definition _uninstallCert (env : Env) (args : Args) : Py Z :=
  let rc := 0 in
  let url := url args in
  try_except
    (trust ← _readTrust env args;
     let trust := store_or_empty trust in
     c ← py_contains trust url;
     pinned ← (if c : bool then
                 v ← py_getitem trust url;
                 mret (negb (py_eq_str v _DISABLED_MARKER))
               else mret false);
     if pinned : bool then
       log_info (RemovingPinning url);;
       trust ← py_delitem trust url;
       _storeTrust env args trust;;
       mret rc
     else
       log_info (NoPinnedCertificate url);;
       mret rc)
    (log_warning (CantMod (trust_file args));; mret 1).

Definition _disableTrust (env : Env) (args : Args) : Py Z :=
  let rc := 0 in
  let url := url args in
  if _needsTrust (Some url) then
    try_except
      (trust ← _readTrust env args;
       let trust := store_or_empty trust in
       c ← py_contains trust url;
       disabled ← (if c : bool then
                     v ← py_getitem trust url;
                     mret (py_eq_str v _DISABLED_MARKER)
                   else mret false);
       if disabled : bool then
         log_info (AlreadyDisabled url);;
         mret rc
       else
         log_info (AllowingAccess url);;
         trust ← py_setitem trust url (PStr _DISABLED_MARKER);
         _storeTrust env args trust;;
         mret rc)
      (log_warning (CantMod (trust_file args));; mret 1)
  else
    log_info (DoesntRequireTrust url);;
    mret rc.

Definition _enableTrust (env : Env) (args : Args) : Py Z :=
  let rc := 0 in
  let url := url args in
  try_except
    (trust ← _readTrust env args;
     let trust := store_or_empty trust in
     c ← py_contains trust url;
     disabled ← (if c : bool then
                   v ← py_getitem trust url;
                   mret (py_eq_str v _DISABLED_MARKER)
                 else mret false);
     if disabled : bool then
       log_info (RemovingPermission url);;
       trust ← py_delitem trust url;
       _storeTrust env args trust;;
       mret rc
     else
       log_info (NotDisabled url);;
       mret rc)
    (log_warning (CantMod (trust_file args));; mret 1).

Definition _clearTrust (env : Env) (args : Args) : Py Z :=
  let rc := 0 in
  e ← exists_ (trust_file args);
  if e : bool then
    log_info ClearingTrust;;
    try_except
      (_storeTrust env args (PDict ∅);; mret rc)
      (log_warning (CantMod (trust_file args));; mret 1)
  else
    log_info (TrustNotFound (trust_file args));;
    mret rc.

(** The sub-commands of the argument parser and the function each one sets
    as [operationFnc]. *)
Inductive operation :=
| install_cert | uninstall_cert | disable_trust | enable_trust | clear_trust.

Definition operationFnc (op : operation) : Env -> Args -> Py Z :=
  match op with
  | install_cert => _installCert
  | uninstall_cert => _uninstallCert
  | disable_trust => _disableTrust
  | enable_trust => _enableTrust
  | clear_trust => _clearTrust
  end.

Definition main (env : Env) (op : operation) (args : Args) : Py Z :=
  operationFnc op env args.

(** ** The time zone of the log lines *)

(** [_TimeZone]: the object keeps one field, the offset from UTC in seconds
    (the [timedelta] that [__init__] builds from [secondsFixed]). *)
Record _TimeZone := { _td : Z }.

(** [_TimeZone.__init__]: the timezone does not work with fractional minutes.
    [%] of Python rounds to the floor, as [mod] on [Z] does for a positive
    divisor. *)
Definition _TimeZone_init (seconds : Z) : _TimeZone :=
  let fraction := seconds mod 60 in
  let secondsFixed :=
    if fraction <? 30 then seconds - fraction else seconds + 60 - fraction in
  {| _td := secondsFixed |}.

Definition utcoffset (self : _TimeZone) : Z := _td self.

Definition tzname (self : _TimeZone) : string := "Custom".

Definition dst (self : _TimeZone) : Z := 0.

(** ** Views of a run used in the statements *)

(** The store that an operation works on once [_readTrust] has answered: a
    missing file and a file holding [null] both count as the empty store. *)
Definition loaded_store (f : option file) : option pyval :=
  match f with
  | None => Some (PDict ∅)
  | Some f =>
      match f_content f with
      | Json v => Some (store_or_empty v)
      | Malformed _ => None
      end
  end.

(** The events that look for the trust file, open it or change its mode. *)
Definition touches_file (e : event) : bool :=
  match e with
  | Exists _ | OpenRead _ | OpenWrite _ | Chmod _ _ => true
  | _ => false
  end.

Definition writes_file (e : event) : bool :=
  match e with
  | OpenWrite _ | Chmod _ _ => true
  | _ => false
  end.

Definition is_warning (e : event) : bool :=
  match e with
  | LogWarning _ => true
  | _ => false
  end.

Definition is_open_write (e : event) : bool :=
  match e with
  | OpenWrite _ => true
  | _ => false
  end.

Definition is_connect (e : event) : bool :=
  match e with
  | Connect _ _ _ => true
  | _ => false
  end.

Definition is_prompt (e : event) : bool :=
  match e with
  | Prompt => true
  | _ => false
  end.

(** A value that the operations take for a store: an object, or [null]. *)
Definition is_store (v : pyval) : bool :=
  match v with
  | PNone | PDict _ => true
  | _ => false
  end.

(** The status, the file and the trace that a run ends with. *)
Definition status {A} (r : outcome A * State) : outcome A := fst r.
Definition file_after {A} (r : outcome A * State) : option file := fs (snd r).
Definition trace_of {A} (r : outcome A * State) : list event := trace (snd r).

(** A URL starts with the secure scheme, whatever the case of its letters. *)
Definition secure_scheme (u : string) : Prop :=
  exists p r, u = p +:+ r /\ lower p = "https://".

(** The user lets the certificate in: [-y] was given, or the answer at the
    prompt is y in either case. *)
Definition confirmed (env : Env) (args : Args) : Prop :=
  y args = true \/ exists answer, console env = Some answer /\ lower answer = "y".

(** The operating system lets the script read, write and chmod the file. *)
Definition io_ok (env : Env) : Prop :=
  open_read_ok env = true /\ open_write_ok env = true /\ chmod_ok env = true.

(** ** Sample runs *)

Definition sample_parts : ParseResult :=
  {| hostname := Some "a.example"; port := PortIs None |}.

(** A host that answers with [pem] (or not at all), a user who types
    [answer], and an operating system that refuses nothing. *)
Definition sample_env (pem answer : option string) : Env :=
  {| urlparse := fun _ => Some sample_parts;
     peer_certificate := fun _ _ => pem;
     console := answer;
     open_read_ok := true;
     open_write_ok := true;
     chmod_ok := true;
     create_mode := 438 |}.

(** The same, with an operating system that may refuse to open the file for
    reading, to open it for writing, or to chmod it. *)
Definition faulty_env (pem answer : option string) (r w c : bool) : Env :=
  {| urlparse := fun _ => Some sample_parts;
     peer_certificate := fun _ _ => pem;
     console := answer;
     open_read_ok := r;
     open_write_ok := w;
     chmod_ok := c;
     create_mode := 438 |}.

(** An environment whose [urlparse] rejects every URL. *)
Definition unparsable_env : Env :=
  {| urlparse := fun _ => None;
     peer_certificate := fun _ _ => Some "CERT";
     console := Some "y";
     open_read_ok := true;
     open_write_ok := true;
     chmod_ok := true;
     create_mode := 438 |}.

Definition sample_args (u : string) (yes : bool) : Args :=
  {| url := u; y := yes; trust_file := "/etc/vmware-eam/depot-trust.json" |}.

Definition sample_file (d : gmap string pyval) (mode : Z) : option file :=
  Some (File (Json (PDict d)) mode).

(** * Properties *)

(** ** Strings and the scheme gate *)

Lemma prefix_app (p s : string) :
  String.prefix p s = true <-> exists r, s = p +:+ r.
Proof.
  revert s. induction p as [|a p IH]; intros s; simpl.
  - destruct s; split; eauto.
  - destruct s as [|b s]; simpl.
    + split; [discriminate | intros [r Hr]; discriminate].
    + destruct (Ascii.ascii_dec a b) as [->|Hab].
      * rewrite IH. split; intros [r Hr]; exists r.
        -- now rewrite Hr.
        -- now injection Hr.
      * split; [discriminate | intros [r Hr]; injection Hr; congruence].
Qed.

Lemma lower_app (p r : string) : lower (p +:+ r) = lower p +:+ lower r.
Proof. induction p as [|a p IH]; simpl; [reflexivity | now rewrite IH]. Qed.

Lemma lower_app_inv (u a b : string) :
  lower u = a +:+ b -> exists p r, u = p +:+ r /\ lower p = a /\ lower r = b.
Proof.
  revert u. induction a as [|c a IH]; intros u H; simpl in H.
  - exists EmptyString, u. auto.
  - destruct u as [|c' u]; simpl in H; [discriminate|].
    injection H as Hc Hu. destruct (IH u Hu) as (p & r & -> & Hp & Hr).
    exists (String c' p), r. simpl. rewrite Hc, Hp. auto.
Qed.

Lemma needsTrust_secure_scheme (u : string) :
  _needsTrust (Some u) = true <-> secure_scheme u.
Proof.
  unfold _needsTrust, startswith, secure_scheme. rewrite prefix_app. split.
  - intros [r Hr]. apply lower_app_inv in Hr as (p & q & -> & Hp & _). eauto.
  - intros (p & r & -> & Hp). exists (lower r). now rewrite lower_app, Hp.
Qed.

Lemma needsTrust_plain (u : string) :
  ~ secure_scheme u -> _needsTrust (Some u) = false.
Proof.
  intros H. destruct (_needsTrust (Some u)) eqn:E; [|reflexivity].
  now apply needsTrust_secure_scheme in E.
Qed.

(** ** Symbolic runs *)

Ltac py_unfold :=
  unfold status, file_after, trace_of, run, main, operationFnc, _installCert,
    _uninstallCert, _disableTrust, _enableTrust, _clearTrust, _readTrust,
    _storeTrust, exists_, fetch_certificate, inFnc, local, undefined_name,
    store_or_empty, py_contains, py_getitem, py_setitem, py_delitem,
    try_except, log_info, log_warning, emit, get_file, put_file, raise,
    mbind, Py_bind, mret, Py_ret in *.

(** Use the equations of the context on the tests that block the run. *)
Ltac py_rew :=
  repeat match goal with
         | H : ?x = _ |- context [?x] => rewrite H; cbn
         end.

Ltac py_run := py_unfold; cbn; py_rew.

(** Split on how the fetch ended, keeping the cases that agree with [Hf]. *)
Ltac fetch_cases parts env Hf :=
  destruct (port parts) as [|[?|]]; cbn in *;
  try destruct (peer_certificate env _ _); cbn in *;
  try discriminate Hf; try (injection Hf as ->); py_rew.

(** Split on one of the answers of the environment or of the store that the
    run waits for. *)
Ltac py_atom :=
  match goal with
  | |- context [_needsTrust ?u] => destruct (_needsTrust u) eqn:?
  | |- context [urlparse ?e ?u] => destruct (urlparse e u) eqn:?
  | |- context [port ?p] => destruct (port p) as [|[?|]] eqn:?
  | |- context [peer_certificate ?e ?h ?p] =>
      destruct (peer_certificate e h p) eqn:?
  | |- context [y ?a] => destruct (y a) eqn:?
  | |- context [console ?e] => destruct (console e) eqn:?
  | |- context [String.eqb (lower ?a) ?s] =>
      destruct (String.eqb (lower a) s) eqn:?
  | |- context [open_read_ok ?e] => destruct (open_read_ok e) eqn:?
  | |- context [open_write_ok ?e] => destruct (open_write_ok e) eqn:?
  | |- context [chmod_ok ?e] => destruct (chmod_ok e) eqn:?
  | |- context [@lookup _ _ _ _ ?k ?d] => is_var d; destruct (d !! k) eqn:?
  | |- context [py_eq_str ?v ?s] => is_var v; destruct (py_eq_str v s) eqn:?
  | |- context [existsb ?p ?l] => is_var l; destruct (existsb p l) eqn:?
  | |- context [str_contains ?s ?p] => destruct (str_contains s p) eqn:?
  end; cbn.

Ltac py_maps :=
  rewrite ?lookup_insert_eq, ?lookup_delete_eq, ?lookup_empty,
    ?insert_insert_eq; cbn.

(** Run an operation through every case. *)
Ltac py_all_cases :=
  py_run; repeat (py_maps; py_atom); py_maps; try discriminate.

(** C2. On a URL that does not start with https:// (whatever the case of the
    letters), install-cert and disable-trust return status 0, leave the trust
    file as it is, and do nothing but log the line that the URL needs no
    trust: the file is neither looked for, read, written nor chmod-ed. *)
Theorem plain_url_is_noop (env : Env) (args : Args) (f : option file) :
  ~ secure_scheme (url args) ->
  run (_installCert env args) f =
    (Return 0, {| fs := f; trace := [LogInfo (DoesntRequireTrust (url args))] |})
  /\ run (_disableTrust env args) f =
    (Return 0, {| fs := f; trace := [LogInfo (DoesntRequireTrust (url args))] |}).
Proof.
  intros H%needsTrust_plain.
  unfold run, _installCert, _disableTrust. rewrite H. split; reflexivity.
Qed.

Lemma plain_url_is_noop_witness :
  let env := sample_env None None in
  let args := sample_args "http://a.example" true in
  let f := sample_file {[ "https://b.example" := PStr "CERT" ]} 511 in
  ~ secure_scheme "http://a.example" /\
  run (_installCert env args) f =
    (Return 0, {| fs := f; trace := [LogInfo (DoesntRequireTrust (url args))] |})
  /\ run (_disableTrust env args) f =
    (Return 0, {| fs := f; trace := [LogInfo (DoesntRequireTrust (url args))] |}).
Proof.
  assert (H : ~ secure_scheme "http://a.example").
  { intros H%needsTrust_secure_scheme. discriminate H. }
  split; [exact H|].
  exact (plain_url_is_noop (sample_env None None)
           (sample_args "http://a.example" true)
           (sample_file {[ "https://b.example" := PStr "CERT" ]} 511) H).
Defined.

(** ** The certificate fetch *)

(** C1 (what the code does). When the URL has the secure scheme and parses,
    and the connection or the handshake fails, install-cert does not return:
    the handler of the failure reads the undefined name [self], so that
    [NameError] leaves the operation and the dispatcher; no warning is logged;
    the trust file is left as it was. *)
Theorem fetch_failure_escapes (env : Env) (args : Args) (f : option file)
    (parts : ParseResult) (e : exn) :
  secure_scheme (url args) ->
  urlparse env (url args) = Some parts ->
  status (run (fetch_certificate env parts) f) = Raise e ->
  let r := run (main env install_cert args) f in
  status r = Raise NameError /\
  file_after r = f /\
  existsb is_warning (trace_of r) = false /\
  existsb touches_file (trace_of r) = false.
Proof.
  intros Hs%needsTrust_secure_scheme Hp Hf. py_run.
  fetch_cases parts env Hf; auto.
Qed.

Lemma fetch_failure_escapes_witness :
  let r := run (main (sample_env None None) install_cert
                  (sample_args "https://a.example" true)) None in
  status r = Raise NameError /\
  file_after r = None /\
  existsb is_warning (trace_of r) = false /\
  existsb touches_file (trace_of r) = false.
Proof.
  apply (fetch_failure_escapes (sample_env None None)
           (sample_args "https://a.example" true) None sample_parts OSError).
  - apply needsTrust_secure_scheme. reflexivity.
  - reflexivity.
  - reflexivity.
Defined.

(** ** The confirmation *)

(** C7 (as stated, refuted). The answer Y is a string other than y, and
    install-cert takes it for a yes: the certificate is pinned and the status
    is 0. *)
Lemma uppercase_answer_confirms :
  let r := run (_installCert (sample_env (Some "CERT") (Some "Y"))
                  (sample_args "https://a.example" false)) None in
  status r = Return 0 /\
  file_after r = sample_file {[ "https://a.example" := PStr "CERT" ]} 420.
Proof. vm_compute. split; reflexivity. Qed.

(** C7 (amended). Without [-y], when the certificate was fetched and the
    answer at the prompt, put in lower case, is not y, install-cert returns
    status 1 and leaves the trust file as it was; the run does not look for
    the file, open it or chmod it. *)
Theorem declined_confirmation_aborts (env : Env) (args : Args)
    (f : option file) (parts : ParseResult) (pem answer : string) :
  secure_scheme (url args) ->
  urlparse env (url args) = Some parts ->
  status (run (fetch_certificate env parts) f) = Return pem ->
  y args = false ->
  console env = Some answer ->
  lower answer <> "y" ->
  let r := run (_installCert env args) f in
  status r = Return 1 /\
  file_after r = f /\
  existsb touches_file (trace_of r) = false.
Proof.
  intros Hs%needsTrust_secure_scheme Hp Hf Hy Hc Ha.
  apply String.eqb_neq in Ha. py_run.
  fetch_cases parts env Hf; auto.
Qed.

Lemma declined_confirmation_aborts_witness :
  let r := run (_installCert (sample_env (Some "CERT") (Some "n"))
                  (sample_args "https://a.example" false))
               (sample_file {[ "https://b.example" := PStr "OTHER" ]} 384) in
  status r = Return 1 /\
  file_after r = sample_file {[ "https://b.example" := PStr "OTHER" ]} 384 /\
  existsb touches_file (trace_of r) = false.
Proof.
  apply (declined_confirmation_aborts (sample_env (Some "CERT") (Some "n"))
           (sample_args "https://a.example" false) _ sample_parts "CERT" "n").
  - apply needsTrust_secure_scheme. reflexivity.
  - reflexivity.
  - reflexivity.
  - reflexivity.
  - reflexivity.
  - discriminate.
Defined.

(** ** Saving the store *)

Lemma storeTrust_returns (env : Env) (args : Args) (trust : pyval)
    (st st' : State) :
  _storeTrust env args trust st = (Return tt, st') ->
  fs st' = Some (File (Json trust) _TRUST_PERMISSIONS).
Proof.
  py_unfold. cbn.
  destruct (open_write_ok env); cbn; [|discriminate].
  destruct (chmod_ok env); cbn; [|discriminate].
  now intros [= <-].
Qed.

(** C8. After every save that returns, the mode of the trust file is exactly
    owner read-write, group read, others read, that is 0o644 = 420, whatever
    the mode before (and whether the file was there); the file holds the store
    that was saved. *)
Theorem save_sets_mode_644 (env : Env) (args : Args) (trust : pyval)
    (st st' : State) :
  _storeTrust env args trust st = (Return tt, st') ->
  exists f, fs st' = Some f /\
    f_content f = Json trust /\
    f_mode f = _TRUST_PERMISSIONS /\
    f_mode f = Z.lor S_IRUSR (Z.lor S_IWUSR (Z.lor S_IRGRP S_IROTH)) /\
    f_mode f = 420.
Proof.
  intros H%storeTrust_returns. eexists. split; [exact H|]. cbn. auto.
Qed.

Lemma save_sets_mode_644_witness :
  exists f,
    fs (snd (_storeTrust (sample_env None None) (sample_args "https://a.example" true)
               (PDict ∅) {| fs := sample_file ∅ 511; trace := [] |})) = Some f /\
    f_content f = Json (PDict ∅) /\
    f_mode f = _TRUST_PERMISSIONS /\
    f_mode f = Z.lor S_IRUSR (Z.lor S_IWUSR (Z.lor S_IRGRP S_IROTH)) /\
    f_mode f = 420.
Proof.
  apply (save_sets_mode_644 (sample_env None None) (sample_args "https://a.example" true)
           (PDict ∅) {| fs := sample_file ∅ 511; trace := [] |}).
  reflexivity.
Defined.

(** The same for the operations: one that returns status 0 and has written the
    trust file leaves it with the mode 0o644. *)
Lemma operation_write_sets_mode (env : Env) (op : operation) (args : Args)
    (f : option file) :
  let r := run (main env op args) f in
  status r = Return 0 ->
  existsb writes_file (trace_of r) = true ->
  exists f', file_after r = Some f' /\ f_mode f' = _TRUST_PERMISSIONS.
Proof.
  destruct op; (destruct f as [[[v|t] m]|]; [destruct v|..]); py_all_cases;
    intros _; try discriminate; intros _; eexists; split; reflexivity.
Qed.

(** C9 (as stated, refuted). After a save the group may not write: the bit
    [S_IWGRP] of the mode is clear. *)
Lemma save_gives_group_no_write :
  exists f,
    file_after (run (_storeTrust (sample_env None None) (sample_args "https://a.example" true)
                       (PDict ∅)) (sample_file ∅ 511)) = Some f /\
    has_perm (f_mode f) S_IWGRP = false.
Proof. eexists. split; reflexivity. Qed.

(** C9 (amended). After every save that returns, the owner may read and write
    the trust file, the group and the others may read it, and neither the
    group nor the others may write it. *)
Theorem save_gives_group_read_only (env : Env) (args : Args) (trust : pyval)
    (st st' : State) :
  _storeTrust env args trust st = (Return tt, st') ->
  exists f, fs st' = Some f /\
    has_perm (f_mode f) S_IRUSR = true /\
    has_perm (f_mode f) S_IWUSR = true /\
    has_perm (f_mode f) S_IRGRP = true /\
    has_perm (f_mode f) S_IWGRP = false /\
    has_perm (f_mode f) S_IROTH = true /\
    has_perm (f_mode f) S_IWOTH = false.
Proof.
  intros H%storeTrust_returns. eexists. split; [exact H|]. cbn. auto 10.
Qed.

Lemma save_gives_group_read_only_witness :
  exists f,
    fs (snd (_storeTrust (sample_env None None) (sample_args "https://a.example" true)
               (PDict ∅) {| fs := None; trace := [] |})) = Some f /\
    has_perm (f_mode f) S_IRUSR = true /\
    has_perm (f_mode f) S_IWUSR = true /\
    has_perm (f_mode f) S_IRGRP = true /\
    has_perm (f_mode f) S_IWGRP = false /\
    has_perm (f_mode f) S_IROTH = true /\
    has_perm (f_mode f) S_IWOTH = false.
Proof.
  apply (save_gives_group_read_only (sample_env None None)
           (sample_args "https://a.example" true) (PDict ∅) {| fs := None; trace := [] |}).
  reflexivity.
Defined.

(** ** Pinning and unpinning *)

Lemma loaded_store_dict (f : option file) (d : gmap string pyval) :
  loaded_store f = Some (PDict d) ->
  (f = None /\ d = ∅) \/
  (exists m, f = Some (File (Json PNone) m) /\ d = ∅) \/
  (exists m, f = Some (File (Json (PDict d)) m)).
Proof.
  destruct f as [[[v|t] m]|]; cbn; [| discriminate | intros [= <-]; auto].
  destruct v; cbn; intros [= <-]; eauto.
Qed.

(** A confirmed install-cert on a store that loads as a dictionary pins the
    fetched certificate, whatever the URL held before. *)
Lemma installCert_pins (env : Env) (args : Args) (f : option file)
    (parts : ParseResult) (pem : string) (d : gmap string pyval) :
  _needsTrust (Some (url args)) = true ->
  urlparse env (url args) = Some parts ->
  status (run (fetch_certificate env parts) f) = Return pem ->
  confirmed env args ->
  io_ok env ->
  loaded_store f = Some (PDict d) ->
  let r := run (_installCert env args) f in
  status r = Return 0 /\
  file_after r =
    Some (File (Json (PDict (<[url args := PStr pem]> d))) _TRUST_PERMISSIONS).
Proof.
  intros Hs Hp Hf Hy (Hr & Hw & Hc) Hd.
  assert (Hk : y args = true \/
               y args = false /\ exists a, console env = Some a /\
                 String.eqb (lower a) "y" = true).
  { destruct Hy as [Hy|(a & Ha & Hl)]; [auto|].
    destruct (y args); [auto|]. right. split; [reflexivity|].
    exists a. now rewrite Hl. }
  apply loaded_store_dict in Hd as [[-> ->]|[(m & -> & ->)|(m & ->)]];
    destruct Hk as [Hy'|(Hy' & a & Ha & Hl)];
    py_run; fetch_cases parts env Hf; auto.
Qed.

Lemma py_eq_str_true (v : pyval) (s : string) :
  py_eq_str v s = true <-> v = PStr s.
Proof.
  destruct v; cbn; try (split; [discriminate | intros [=]]).
  rewrite String.eqb_eq. split; [now intros -> | now intros [= ->]].
Qed.

Lemma py_eq_str_false (v : pyval) (s : string) :
  py_eq_str v s = false <-> v <> PStr s.
Proof.
  rewrite <- py_eq_str_true. destruct (py_eq_str v s); split; congruence.
Qed.

(** uninstall-cert and enable-trust on a URL that the store does not hold. *)
Lemma uninstall_enable_absent (env : Env) (args : Args)
    (d : gmap string pyval) (m : Z) :
  d !! url args = None ->
  open_read_ok env = true ->
  forall op, op = uninstall_cert \/ op = enable_trust ->
  let r := run (main env op args) (Some (File (Json (PDict d)) m)) in
  status r = Return 0 /\
  file_after r = Some (File (Json (PDict d)) m) /\
  existsb writes_file (trace_of r) = false.
Proof.
  intros Hd Hr op [-> | ->]; py_run; auto.
Qed.

(** uninstall-cert on an entry that is not the marker removes it. *)
Lemma uninstall_removes (env : Env) (args : Args) (d : gmap string pyval)
    (m : Z) (v : pyval) :
  d !! url args = Some v ->
  py_eq_str v _DISABLED_MARKER = false ->
  io_ok env ->
  let r := run (_uninstallCert env args) (Some (File (Json (PDict d)) m)) in
  status r = Return 0 /\
  file_after r =
    Some (File (Json (PDict (delete (url args) d))) _TRUST_PERMISSIONS).
Proof.
  intros Hd Hv (Hr & Hw & Hc). py_run. auto.
Qed.

(** enable-trust on an entry that is the marker removes it. *)
Lemma enable_removes (env : Env) (args : Args) (d : gmap string pyval)
    (m : Z) :
  d !! url args = Some (PStr _DISABLED_MARKER) ->
  io_ok env ->
  let r := run (_enableTrust env args) (Some (File (Json (PDict d)) m)) in
  status r = Return 0 /\
  file_after r =
    Some (File (Json (PDict (delete (url args) d))) _TRUST_PERMISSIONS).
Proof.
  intros Hd (Hr & Hw & Hc). py_run. auto.
Qed.

(** uninstall-cert on the marker: nothing is written. *)
Lemma uninstall_keeps_marker (env : Env) (args : Args)
    (d : gmap string pyval) (m : Z) :
  d !! url args = Some (PStr _DISABLED_MARKER) ->
  let r := run (_uninstallCert env args) (Some (File (Json (PDict d)) m)) in
  file_after r = Some (File (Json (PDict d)) m) /\
  existsb writes_file (trace_of r) = false /\
  (open_read_ok env = true -> status r = Return 0).
Proof.
  intros Hd. py_run.
  destruct (open_read_ok env); cbn; py_rew; intuition congruence.
Qed.

(** enable-trust on an entry that is not the marker: nothing is written. *)
Lemma enable_keeps_pin (env : Env) (args : Args) (d : gmap string pyval)
    (m : Z) (v : pyval) :
  d !! url args = Some v ->
  py_eq_str v _DISABLED_MARKER = false ->
  let r := run (_enableTrust env args) (Some (File (Json (PDict d)) m)) in
  file_after r = Some (File (Json (PDict d)) m) /\
  existsb writes_file (trace_of r) = false /\
  (open_read_ok env = true -> status r = Return 0).
Proof.
  intros Hd Hv. py_run.
  destruct (open_read_ok env); cbn; py_rew; intuition congruence.
Qed.

(** C3. When the store holds the TrustDisabled marker for the URL,
    uninstall-cert leaves the trust file as it is and writes nothing; when it
    holds a value other than the marker (a pinned certificate), enable-trust
    leaves the trust file as it is and writes nothing.  Both return status 0
    as soon as the file can be read. *)
Theorem unpin_and_enable_spare_the_other_kind (env : Env) (args : Args)
    (d1 d2 : gmap string pyval) (m1 m2 : Z) (v : pyval) :
  d1 !! url args = Some (PStr _DISABLED_MARKER) ->
  d2 !! url args = Some v ->
  v <> PStr _DISABLED_MARKER ->
  let r1 := run (_uninstallCert env args) (Some (File (Json (PDict d1)) m1)) in
  let r2 := run (_enableTrust env args) (Some (File (Json (PDict d2)) m2)) in
  (file_after r1 = Some (File (Json (PDict d1)) m1) /\
   existsb writes_file (trace_of r1) = false /\
   (open_read_ok env = true -> status r1 = Return 0)) /\
  (file_after r2 = Some (File (Json (PDict d2)) m2) /\
   existsb writes_file (trace_of r2) = false /\
   (open_read_ok env = true -> status r2 = Return 0)).
Proof.
  intros H1 H2 Hv%py_eq_str_false. split.
  - now apply uninstall_keeps_marker.
  - now apply enable_keeps_pin with (v := v).
Qed.

Lemma unpin_and_enable_spare_the_other_kind_witness :
  let env := sample_env None None in
  let args := sample_args "https://a.example" false in
  let d1 : gmap string pyval := {[ "https://a.example" := PStr "AnyCertificate" ]} in
  let d2 : gmap string pyval := {[ "https://a.example" := PStr "CERT" ]} in
  let r1 := run (_uninstallCert env args) (Some (File (Json (PDict d1)) 420)) in
  let r2 := run (_enableTrust env args) (Some (File (Json (PDict d2)) 420)) in
  (file_after r1 = Some (File (Json (PDict d1)) 420) /\
   existsb writes_file (trace_of r1) = false /\
   (open_read_ok env = true -> status r1 = Return 0)) /\
  (file_after r2 = Some (File (Json (PDict d2)) 420) /\
   existsb writes_file (trace_of r2) = false /\
   (open_read_ok env = true -> status r2 = Return 0)).
Proof.
  apply (unpin_and_enable_spare_the_other_kind (sample_env None None)
           (sample_args "https://a.example" false)
           {[ "https://a.example" := PStr "AnyCertificate" ]}
           {[ "https://a.example" := PStr "CERT" ]} 420 420 (PStr "CERT")).
  - reflexivity.
  - reflexivity.
  - discriminate.
Defined.

(** ** Disabling trust *)

(** disable-trust on a secure URL whose entry is not the marker yet. *)
Lemma disable_sets_marker (env : Env) (args : Args) (f : option file)
    (d : gmap string pyval) :
  _needsTrust (Some (url args)) = true ->
  io_ok env ->
  loaded_store f = Some (PDict d) ->
  d !! url args <> Some (PStr _DISABLED_MARKER) ->
  let r := run (_disableTrust env args) f in
  status r = Return 0 /\
  file_after r =
    Some (File (Json (PDict (<[url args := PStr _DISABLED_MARKER]> d)))
            _TRUST_PERMISSIONS) /\
  existsb writes_file (trace_of r) = true.
Proof.
  intros Hs (Hr & Hw & Hc) Hd Hv.
  assert (Hk : d !! url args = None \/
               exists v, d !! url args = Some v /\
                         py_eq_str v _DISABLED_MARKER = false).
  { destruct (d !! url args) as [v|]; [right|auto]. exists v.
    split; [reflexivity|]. apply py_eq_str_false. congruence. }
  apply loaded_store_dict in Hd as [[-> ->]|[(m & -> & ->)|(m & ->)]];
    destruct Hk as [Hn|(v & Hn & Hm)]; py_run; auto;
    rewrite lookup_empty in Hn; discriminate.
Qed.

(** disable-trust on a URL that already holds the marker. *)
Lemma disable_already (env : Env) (args : Args) (d : gmap string pyval)
    (m : Z) :
  d !! url args = Some (PStr _DISABLED_MARKER) ->
  open_read_ok env = true ->
  let r := run (_disableTrust env args) (Some (File (Json (PDict d)) m)) in
  status r = Return 0 /\
  file_after r = Some (File (Json (PDict d)) m) /\
  existsb writes_file (trace_of r) = false.
Proof.
  intros Hd Hr. py_run. destruct (_needsTrust _); cbn; py_rew; auto.
Qed.

(** C4 (as stated, refuted). The store holds a pinned certificate for a URL
    of scheme http; disable-trust on that URL writes nothing and the
    certificate is still there. *)
Lemma disable_spares_pin_of_plain_url :
  let f := sample_file {[ "http://a.example" := PStr "CERT" ]} 420 in
  let r := run (_disableTrust (sample_env None None)
                  (sample_args "http://a.example" false)) f in
  status r = Return 0 /\
  existsb writes_file (trace_of r) = false /\
  exists d, loaded_store (file_after r) = Some (PDict d) /\
            d !! "http://a.example" = Some (PStr "CERT").
Proof.
  vm_compute. split; [reflexivity|]. split; [reflexivity|].
  eexists. split; reflexivity.
Qed.

(** C4 (amended). When the URL has the secure scheme, the store holds a pinned
    certificate for it and the file can be read, written and chmod-ed,
    disable-trust returns status 0 and saves the store with the marker in the
    place of the certificate: the certificate is no longer there. *)
Theorem disable_overwrites_pin (env : Env) (args : Args)
    (d : gmap string pyval) (m : Z) (cert : string) :
  secure_scheme (url args) ->
  io_ok env ->
  d !! url args = Some (PStr cert) ->
  cert <> _DISABLED_MARKER ->
  let r := run (_disableTrust env args) (Some (File (Json (PDict d)) m)) in
  status r = Return 0 /\
  existsb writes_file (trace_of r) = true /\
  file_after r =
    Some (File (Json (PDict (<[url args := PStr _DISABLED_MARKER]> d)))
            _TRUST_PERMISSIONS) /\
  exists d', loaded_store (file_after r) = Some (PDict d') /\
             d' !! url args = Some (PStr _DISABLED_MARKER) /\
             d' !! url args <> Some (PStr cert).
Proof.
  intros Hs%needsTrust_secure_scheme Hio Hd Hc.
  destruct (disable_sets_marker env args (Some (File (Json (PDict d)) m)) d)
    as (H0 & Hf & Hw); auto; [congruence|].
  cbn zeta. rewrite Hf. repeat split; auto.
  eexists. split; [reflexivity|]. rewrite lookup_insert_eq.
  split; congruence.
Qed.

Lemma disable_overwrites_pin_witness :
  let env := sample_env None None in
  let args := sample_args "HTTPS://a.example" false in
  let d : gmap string pyval := {[ "HTTPS://a.example" := PStr "CERT" ]} in
  let r := run (_disableTrust env args) (Some (File (Json (PDict d)) 384)) in
  status r = Return 0 /\
  existsb writes_file (trace_of r) = true /\
  file_after r =
    Some (File (Json (PDict (<[url args := PStr _DISABLED_MARKER]> d)))
            _TRUST_PERMISSIONS) /\
  exists d', loaded_store (file_after r) = Some (PDict d') /\
             d' !! url args = Some (PStr _DISABLED_MARKER) /\
             d' !! url args <> Some (PStr "CERT").
Proof.
  apply (disable_overwrites_pin (sample_env None None)
           (sample_args "HTTPS://a.example" false)
           {[ "HTTPS://a.example" := PStr "CERT" ]} 384 "CERT").
  - apply needsTrust_secure_scheme. reflexivity.
  - repeat split.
  - reflexivity.
  - discriminate.
Defined.

(** ** Pin, then unpin *)

(** C6 (as stated, refuted). The store holds a certificate for the URL;
    install-cert puts the fetched one in its place and uninstall-cert removes
    it: the store ends empty, not as it was. *)
Lemma pin_unpin_loses_prior_entry :
  let env := sample_env (Some "NEW") None in
  let args := sample_args "https://a.example" true in
  let f := sample_file {[ "https://a.example" := PStr "OLD" ]} 420 in
  let r1 := run (_installCert env args) f in
  let r2 := run (_uninstallCert env args) (file_after r1) in
  status r1 = Return 0 /\
  status r2 = Return 0 /\
  loaded_store (file_after r2) = Some (PDict ∅) /\
  loaded_store (file_after r2) <> loaded_store f.
Proof.
  vm_compute. repeat split. discriminate.
Qed.

(** C6 (amended). When the URL has the secure scheme and parses, the store
    holds no entry for it, the fetched certificate is not the marker string,
    the user confirms (or [-y] is given) and the file can be read, written and
    chmod-ed, install-cert followed by uninstall-cert on the same URL both
    return status 0 and the store is again what it was before the pin. *)
Theorem pin_then_unpin_restores (env : Env) (args : Args) (f : option file)
    (parts : ParseResult) (pem : string) (d : gmap string pyval) :
  secure_scheme (url args) ->
  urlparse env (url args) = Some parts ->
  status (run (fetch_certificate env parts) f) = Return pem ->
  confirmed env args ->
  io_ok env ->
  loaded_store f = Some (PDict d) ->
  d !! url args = None ->
  pem <> _DISABLED_MARKER ->
  let r1 := run (_installCert env args) f in
  let r2 := run (_uninstallCert env args) (file_after r1) in
  status r1 = Return 0 /\
  status r2 = Return 0 /\
  loaded_store (file_after r2) = loaded_store f.
Proof.
  intros Hs%needsTrust_secure_scheme Hp Hf Hy Hio Hd Hn Hm.
  destruct (installCert_pins env args f parts pem d) as [H1 H2]; auto.
  cbn zeta. rewrite H1, H2.
  destruct (uninstall_removes env args (<[url args := PStr pem]> d)
              _TRUST_PERMISSIONS (PStr pem)) as [H3 H4]; auto.
  { apply lookup_insert_eq. }
  { apply py_eq_str_false. congruence. }
  rewrite H3, H4, Hd. cbn. now rewrite delete_insert_id.
Qed.

Lemma pin_then_unpin_restores_witness :
  let env := sample_env (Some "CERT") None in
  let args := sample_args "https://a.example" true in
  let f := sample_file {[ "https://b.example" := PStr "OTHER" ]} 384 in
  let r1 := run (_installCert env args) f in
  let r2 := run (_uninstallCert env args) (file_after r1) in
  status r1 = Return 0 /\
  status r2 = Return 0 /\
  loaded_store (file_after r2) = loaded_store f.
Proof.
  apply (pin_then_unpin_restores (sample_env (Some "CERT") None)
           (sample_args "https://a.example" true)
           (sample_file {[ "https://b.example" := PStr "OTHER" ]} 384)
           sample_parts "CERT" {[ "https://b.example" := PStr "OTHER" ]}).
  - apply needsTrust_secure_scheme. reflexivity.
  - reflexivity.
  - reflexivity.
  - left. reflexivity.
  - repeat split.
  - reflexivity.
  - reflexivity.
  - discriminate.
Defined.

(** ** A certificate equal to the marker *)

(** C10. When install-cert pins a certificate whose PEM text is the marker
    string AnyCertificate, the store it saves is the one that disable-trust
    saves; uninstall-cert on the URL then returns status 0, writes nothing and
    leaves the entry in place, and enable-trust removes the entry. *)
Theorem marker_certificate_reads_as_disabled (env : Env) (args : Args)
    (f : option file) (parts : ParseResult) (d : gmap string pyval) :
  secure_scheme (url args) ->
  urlparse env (url args) = Some parts ->
  status (run (fetch_certificate env parts) f) = Return _DISABLED_MARKER ->
  confirmed env args ->
  io_ok env ->
  loaded_store f = Some (PDict d) ->
  let r := run (_installCert env args) f in
  let r_unpin := run (_uninstallCert env args) (file_after r) in
  let r_enable := run (_enableTrust env args) (file_after r) in
  status r = Return 0 /\
  loaded_store (file_after r) =
    Some (PDict (<[url args := PStr _DISABLED_MARKER]> d)) /\
  loaded_store (file_after r) =
    loaded_store (file_after (run (_disableTrust env args) f)) /\
  (status r_unpin = Return 0 /\
   file_after r_unpin = file_after r /\
   existsb writes_file (trace_of r_unpin) = false) /\
  (status r_enable = Return 0 /\
   loaded_store (file_after r_enable) = Some (PDict (delete (url args) d))).
Proof.
  intros Hs%needsTrust_secure_scheme Hp Hf Hy Hio Hd.
  destruct (installCert_pins env args f parts _DISABLED_MARKER d)
    as [H1 H2]; auto.
  cbn zeta. rewrite H1, H2.
  assert (Hl : <[url args := PStr _DISABLED_MARKER]> d !! url args =
               Some (PStr _DISABLED_MARKER)) by apply lookup_insert_eq.
  split; [reflexivity|]. split; [reflexivity|]. split; [|split].
  - destruct (d !! url args) as [v|] eqn:Hv;
      [destruct (py_eq_str v _DISABLED_MARKER) eqn:Hm|].
    + apply py_eq_str_true in Hm as ->.
      apply loaded_store_dict in Hd as [[-> ->]|[(m & -> & ->)|(m & ->)]];
        try (rewrite lookup_empty in Hv; discriminate).
      destruct (disable_already env args d m Hv) as (_ & -> & _);
        [apply Hio|]. cbn. now rewrite insert_id.
    + apply py_eq_str_false in Hm.
      destruct (disable_sets_marker env args f d) as (_ & -> & _); auto.
      congruence.
    + destruct (disable_sets_marker env args f d) as (_ & -> & _); auto.
      congruence.
  - destruct (uninstall_keeps_marker env args _ _TRUST_PERMISSIONS Hl)
      as (Ha & Hb & Hc).
    split; [apply Hc, Hio | auto].
  - destruct (enable_removes env args _ _TRUST_PERMISSIONS Hl Hio)
      as [Ha Hb].
    split; [exact Ha|]. rewrite Hb. cbn. now rewrite delete_insert_eq.
Qed.

Lemma marker_certificate_reads_as_disabled_witness :
  let env := sample_env (Some "AnyCertificate") None in
  let args := sample_args "https://a.example" true in
  let d : gmap string pyval := {[ "https://b.example" := PStr "OTHER" ]} in
  let r := run (_installCert env args) (sample_file d 420) in
  let r_unpin := run (_uninstallCert env args) (file_after r) in
  let r_enable := run (_enableTrust env args) (file_after r) in
  status r = Return 0 /\
  loaded_store (file_after r) =
    Some (PDict (<[url args := PStr _DISABLED_MARKER]> d)) /\
  loaded_store (file_after r) =
    loaded_store (file_after (run (_disableTrust env args) (sample_file d 420))) /\
  (status r_unpin = Return 0 /\
   file_after r_unpin = file_after r /\
   existsb writes_file (trace_of r_unpin) = false) /\
  (status r_enable = Return 0 /\
   loaded_store (file_after r_enable) = Some (PDict (delete (url args) d))).
Proof.
  apply (marker_certificate_reads_as_disabled
           (sample_env (Some "AnyCertificate") None)
           (sample_args "https://a.example" true)
           (sample_file {[ "https://b.example" := PStr "OTHER" ]} 420)
           sample_parts {[ "https://b.example" := PStr "OTHER" ]}).
  - apply needsTrust_secure_scheme. reflexivity.
  - reflexivity.
  - reflexivity.
  - left. reflexivity.
  - repeat split.
  - reflexivity.
Defined.

(** ** Repeating an operation *)

Lemma filter_key_absent {A} (l : list (string * A)) (k : string) :
  k ∉ l.*1 -> filter (fun kv => kv.1 = k) l = [].
Proof.
  induction l as [|[a b] l IH]; [reflexivity|].
  rewrite fmap_cons, not_elem_of_cons. intros [Hne Hl].
  rewrite filter_cons_False by (cbn in *; congruence). auto.
Qed.

Lemma filter_key_unique {A} (l : list (string * A)) (k : string) (x : A) :
  NoDup (l.*1) -> (k, x) ∈ l -> filter (fun kv => kv.1 = k) l = [(k, x)].
Proof.
  induction l as [|[a b] l IH]; [intros _ H; inversion H|].
  rewrite fmap_cons, NoDup_cons, elem_of_cons.
  intros [Ha Hl] [[= <- <-]|Hin].
  - rewrite filter_cons_True by reflexivity.
    now rewrite filter_key_absent.
  - rewrite filter_cons_False; [auto|]. cbn. intros ->.
    apply Ha. apply list_elem_of_fmap. now exists (k, x).
Qed.

(** A dictionary holds one entry for a key that it maps. *)
Lemma one_entry (d : gmap string pyval) (k : string) (x : pyval) :
  d !! k = Some x -> filter (fun kv => kv.1 = k) (map_to_list d) = [(k, x)].
Proof.
  intros H. apply filter_key_unique.
  - apply NoDup_fst_map_to_list.
  - now apply elem_of_map_to_list.
Qed.

(** An operation that returned 0 returns 0 again when it is repeated, and
    the file stays as the first run left it. *)
Lemma rerun_same_file (env : Env) (op : operation) (args : Args)
    (f : option file) :
  open_read_ok env = true ->
  let r := run (main env op args) f in
  status r = Return 0 ->
  let r' := run (main env op args) (file_after r) in
  status r' = Return 0 /\ file_after r' = file_after r.
Proof.
  intros Hr.
  destruct op; (destruct f as [[[v|t] m]|]; [destruct v|..]); py_all_cases;
    intros _; auto; simplify_eq; congruence.
Qed.

(** The second of two uninstall-cert writes nothing. *)
Lemma rerun_uninstall_writes_nothing (env : Env) (args : Args)
    (f : option file) :
  open_read_ok env = true ->
  let r := run (_uninstallCert env args) f in
  status r = Return 0 ->
  existsb writes_file
    (trace_of (run (_uninstallCert env args) (file_after r))) = false.
Proof.
  intros Hr.
  destruct f as [[[v|t] m]|]; [destruct v|..]; py_all_cases;
    intros _; auto; simplify_eq; congruence.
Qed.

(** A disable-trust that returned 0 on a secure URL left the marker. *)
Lemma disable_leaves_marker (env : Env) (args : Args) (f : option file) :
  _needsTrust (Some (url args)) = true ->
  let r := run (_disableTrust env args) f in
  status r = Return 0 ->
  exists d, loaded_store (file_after r) = Some (PDict d) /\
            d !! url args = Some (PStr _DISABLED_MARKER).
Proof.
  intros Hs.
  destruct f as [[[v|t] m]|]; [destruct v|..]; py_all_cases; intros _;
    eexists; (split; [reflexivity|]);
    rewrite ?lookup_insert_eq; auto.
  all: match goal with H : py_eq_str _ _ = true |- _ =>
         apply py_eq_str_true in H as -> end.
  all: assumption.
Qed.

(** C5. An operation that returned status 0 returns status 0 again when the
    same invocation is repeated at once (the same URL, the same answers of the
    host and of the user, a file that can be read), and the trust file is then
    what the single invocation left.  This holds for install-cert,
    uninstall-cert, disable-trust and enable-trust (and for clear-trust).  The
    second of two uninstall-cert writes nothing; after two disable-trust on a
    secure URL the store holds one entry for the URL, the TrustDisabled
    marker. *)
Theorem operations_idempotent (env : Env) (op : operation) (args : Args)
    (f : option file) :
  open_read_ok env = true ->
  status (run (main env op args) f) = Return 0 ->
  let r := run (main env op args) f in
  let r' := run (main env op args) (file_after r) in
  status r' = Return 0 /\
  file_after r' = file_after r /\
  (op = uninstall_cert -> existsb writes_file (trace_of r') = false) /\
  (op = disable_trust -> secure_scheme (url args) ->
   exists d, loaded_store (file_after r') = Some (PDict d) /\
     filter (fun kv => kv.1 = url args) (map_to_list d) =
       [(url args, PStr _DISABLED_MARKER)]).
Proof.
  intros Hr H0.
  destruct (rerun_same_file env op args f Hr H0) as [H1 H2].
  cbn zeta. split; [exact H1|]. split; [exact H2|]. split.
  - intros ->. now apply rerun_uninstall_writes_nothing.
  - intros -> Hs%needsTrust_secure_scheme. rewrite H2.
    destruct (disable_leaves_marker env args f Hs H0) as (d & Hd & Hl).
    exists d. split; [exact Hd|]. now apply one_entry.
Qed.

Lemma operations_idempotent_witness :
  let env := sample_env (Some "CERT") None in
  let args := sample_args "https://a.example" true in
  let f := sample_file {[ "https://a.example" := PStr "OLD" ]} 384 in
  (let r := run (main env uninstall_cert args) f in
   let r' := run (main env uninstall_cert args) (file_after r) in
   status r' = Return 0 /\
   file_after r' = file_after r /\
   existsb writes_file (trace_of r') = false) /\
  (let r := run (main env disable_trust args) f in
   let r' := run (main env disable_trust args) (file_after r) in
   status r' = Return 0 /\
   file_after r' = file_after r /\
   exists d, loaded_store (file_after r') = Some (PDict d) /\
     filter (fun kv => kv.1 = url args) (map_to_list d) =
       [(url args, PStr _DISABLED_MARKER)]) /\
  (let r := run (main env install_cert args) f in
   let r' := run (main env install_cert args) (file_after r) in
   status r' = Return 0 /\
   file_after r' = file_after r).
Proof.
  intros env args f. split; [|split].
  - destruct (operations_idempotent env uninstall_cert args f eq_refl eq_refl)
      as (H1 & H2 & H3 & _).
    split; [exact H1|]. split; [exact H2 | exact (H3 eq_refl)].
  - destruct (operations_idempotent env disable_trust args f eq_refl eq_refl)
      as (H1 & H2 & _ & H4).
    split; [exact H1|]. split; [exact H2|]. apply (H4 eq_refl).
    apply needsTrust_secure_scheme. reflexivity.
  - destruct (operations_idempotent env install_cert args f eq_refl eq_refl)
      as (H1 & H2 & _).
    split; [exact H1 | exact H2].
Defined.

(** * Further properties of the script *)

(** ** The time zone *)

Lemma secondsFixed_bounds (seconds : Z) :
  let off := utcoffset (_TimeZone_init seconds) in
  off mod 60 = 0 /\ -30 < off - seconds <= 30.
Proof.
  unfold utcoffset, _TimeZone_init. cbn.
  pose proof (Z.mod_pos_bound seconds 60 ltac:(lia)) as Hb.
  pose proof (Z.div_mod seconds 60 ltac:(lia)) as Hd.
  destruct (seconds mod 60 <? 30) eqn:E;
    [apply Z.ltb_lt in E | apply Z.ltb_ge in E]; split; try lia.
  - replace (seconds - seconds mod 60) with (seconds / 60 * 60) by lia.
    apply Z.mod_mul. lia.
  - replace (seconds + 60 - seconds mod 60) with ((seconds / 60 + 1) * 60)
      by lia.
    apply Z.mod_mul. lia.
Qed.

(** X1. The offset that [_TimeZone] keeps is a whole number of minutes, and it
    is the one nearest to the seconds given: it differs from them by less than
    30 seconds downwards and by at most 30 seconds upwards (a half minute goes
    up), for negative offsets too. *)
Theorem timezone_offset_nearest_minute (seconds : Z) :
  let off := utcoffset (_TimeZone_init seconds) in
  off mod 60 = 0 /\ -30 < off - seconds <= 30.
Proof. exact (secondsFixed_bounds seconds). Qed.

(** X2. An offset of whole minutes is kept as it is, and fixing an offset
    twice gives what fixing it once gives. *)
Theorem timezone_offset_fixed_point (seconds : Z) :
  let fix_ := fun s => utcoffset (_TimeZone_init s) in
  (seconds mod 60 = 0 <-> fix_ seconds = seconds) /\
  fix_ (fix_ seconds) = fix_ seconds.
Proof.
  cbn zeta.
  assert (Hwhole : forall s, s mod 60 = 0 -> utcoffset (_TimeZone_init s) = s).
  { intros s Hs. unfold utcoffset, _TimeZone_init. cbn. rewrite Hs. cbn. lia. }
  split; [split|].
  - apply Hwhole.
  - intros H. rewrite <- H.
    apply (secondsFixed_bounds seconds).
  - apply Hwhole. apply (secondsFixed_bounds seconds).
Qed.

(** X3. The offset grows with the seconds: a later clock never gets an
    earlier time zone. *)
Theorem timezone_offset_monotone (s1 s2 : Z) :
  s1 <= s2 ->
  utcoffset (_TimeZone_init s1) <= utcoffset (_TimeZone_init s2).
Proof.
  intros H.
  destruct (secondsFixed_bounds s1) as [H1 B1].
  destruct (secondsFixed_bounds s2) as [H2 B2].
  cbn zeta in *.
  set (a := utcoffset (_TimeZone_init s1)) in *.
  set (b := utcoffset (_TimeZone_init s2)) in *.
  apply Z.mod_divide in H1; [|lia]. apply Z.mod_divide in H2; [|lia].
  destruct H1 as [k1 ->]. destruct H2 as [k2 ->].
  lia.
Qed.

Lemma timezone_offset_monotone_witness :
  utcoffset (_TimeZone_init (-3631)) <= utcoffset (_TimeZone_init 7230).
Proof. apply timezone_offset_monotone. lia. Defined.

(** ** Clearing the store *)

(** X4. clear-trust on a trust file that exists and can be written and
    chmod-ed returns status 0 and leaves the empty store with the mode 0o644,
    whatever the file held (text that is not JSON too) and without reading
    it. *)
Theorem clear_empties_any_file (env : Env) (args : Args) (c : content) (m : Z) :
  open_write_ok env = true ->
  chmod_ok env = true ->
  let r := run (_clearTrust env args) (Some (File c m)) in
  status r = Return 0 /\
  file_after r = Some (File (Json (PDict ∅)) _TRUST_PERMISSIONS) /\
  existsb (fun e => match e with OpenRead _ => true | _ => false end)
    (trace_of r) = false.
Proof. intros Hw Hc. py_run. auto. Qed.

Lemma clear_empties_any_file_witness :
  let r := run (_clearTrust (sample_env None None)
                  (sample_args "https://a.example" false))
               (Some (File (Malformed "{not json") 511)) in
  status r = Return 0 /\
  file_after r = Some (File (Json (PDict ∅)) _TRUST_PERMISSIONS) /\
  existsb (fun e => match e with OpenRead _ => true | _ => false end)
    (trace_of r) = false.
Proof.
  apply (clear_empties_any_file (sample_env None None)
           (sample_args "https://a.example" false)
           (Malformed "{not json") 511); reflexivity.
Defined.

(** ** Status and warnings *)

(** X6. uninstall-cert, disable-trust, enable-trust and clear-trust never
    raise: they return 0 or 1.  They return 1 exactly when they have logged a
    warning, and that warning is the single one of the run and names the path
    of the trust file. *)
Theorem status_one_iff_warning (env : Env) (op : operation) (args : Args)
    (f : option file) :
  op <> install_cert ->
  let r := run (main env op args) f in
  (status r = Return 0 /\ List.filter is_warning (trace_of r) = []) \/
  (status r = Return 1 /\
   List.filter is_warning (trace_of r) =
     [LogWarning (CantMod (trust_file args))]).
Proof.
  intros Hop.
  destruct op; [congruence|..];
    (destruct f as [[[v|t] m]|]; [destruct v|..]); py_all_cases; auto.
Qed.

Lemma status_one_iff_warning_witness :
  let r := run (main (sample_env None None) enable_trust
                  (sample_args "https://a.example" false))
               (Some (File (Malformed "{not json") 420)) in
  (status r = Return 0 /\ List.filter is_warning (trace_of r) = []) \/
  (status r = Return 1 /\
   List.filter is_warning (trace_of r) =
     [LogWarning (CantMod "/etc/vmware-eam/depot-trust.json")]).
Proof.
  apply (status_one_iff_warning (sample_env None None) enable_trust
           (sample_args "https://a.example" false)
           (Some (File (Malformed "{not json") 420))).
  discriminate.
Defined.

(** ** What the operations leave alone *)



(** X8. The trust file changes through [open] for writing only: a run of any
    of the five operations that has not opened the file for writing leaves it
    as it was, content and mode. *)
Theorem unchanged_without_open_write (env : Env) (op : operation)
    (args : Args) (f : option file) :
  let r := run (main env op args) f in
  existsb is_open_write (trace_of r) = false ->
  file_after r = f.
Proof.
  destruct op; (destruct f as [[[v|t] m]|]; [destruct v|..]); py_all_cases;
    auto; discriminate.
Qed.

Lemma unchanged_without_open_write_witness :
  let f := sample_file {[ "https://a.example" := PStr "AnyCertificate" ]} 384 in
  file_after (run (main (sample_env None None) uninstall_cert
                     (sample_args "https://a.example" false)) f) = f.
Proof.
  apply (unchanged_without_open_write (sample_env None None) uninstall_cert
           (sample_args "https://a.example" false)).
  reflexivity.
Defined.

(** X9. A trust file whose JSON value is neither an object nor null (an
    array, a string, a number, a boolean) is never written by install-cert,
    uninstall-cert, disable-trust or enable-trust: the file stays as it was
    and is not opened for writing. *)
Theorem non_object_store_never_written (env : Env) (op : operation)
    (args : Args) (v : pyval) (m : Z) :
  op <> clear_trust ->
  is_store v = false ->
  let r := run (main env op args) (Some (File (Json v) m)) in
  file_after r = Some (File (Json v) m) /\
  existsb is_open_write (trace_of r) = false.
Proof.
  intros Hop Hv.
  destruct v; try discriminate Hv; (destruct op; [..|congruence]);
    py_all_cases; auto.
Qed.

Lemma non_object_store_never_written_witness :
  let f := Some (File (Json (PList [PStr "https://a.example"])) 420) in
  let r := run (main (sample_env (Some "CERT") None) install_cert
                  (sample_args "https://a.example" true)) f in
  file_after r = f /\ existsb is_open_write (trace_of r) = false.
Proof.
  apply (non_object_store_never_written (sample_env (Some "CERT") None)
           install_cert (sample_args "https://a.example" true)
           (PList [PStr "https://a.example"]) 420).
  - discriminate.
  - reflexivity.
Defined.

(** X10. When the trust file exists and cannot be opened for reading, or holds
    text that is not JSON, uninstall-cert and enable-trust (and disable-trust
    on a secure URL) return status 1 and leave the file as it was, without
    opening it for writing. *)
Theorem unreadable_store_fails_cleanly (env : Env) (op : operation)
    (args : Args) (c : content) (m : Z) :
  op = uninstall_cert \/ op = enable_trust \/
    (op = disable_trust /\ secure_scheme (url args)) ->
  open_read_ok env = false \/ (exists text, c = Malformed text) ->
  let r := run (main env op args) (Some (File c m)) in
  status r = Return 1 /\
  file_after r = Some (File c m) /\
  existsb is_open_write (trace_of r) = false.
Proof.
  intros Hop Hc.
  assert (Hs : op = disable_trust -> _needsTrust (Some (url args)) = true).
  { intros ->. destruct Hop as [?|[?|[_ H]]]; try discriminate.
    now apply needsTrust_secure_scheme. }
  assert (Ho : op = uninstall_cert \/ op = enable_trust \/ op = disable_trust)
    by tauto.
  clear Hop.
  destruct Ho as [ -> | [ -> | -> ] ]; try specialize (Hs eq_refl);
    (destruct Hc as [Hr | (text & ->)]; [destruct c as [v|t]|]);
    py_run; try (destruct (open_read_ok env); cbn); auto.
Qed.

Lemma unreadable_store_fails_cleanly_witness :
  let f := Some (File (Malformed "{not json") 420) in
  let r := run (main (sample_env None None) disable_trust
                  (sample_args "https://a.example" false)) f in
  status r = Return 1 /\
  file_after r = f /\
  existsb is_open_write (trace_of r) = false.
Proof.
  apply (unreadable_store_fails_cleanly (sample_env None None) disable_trust
           (sample_args "https://a.example" false)
           (Malformed "{not json") 420).
  - right. right. split; [reflexivity|].
    apply needsTrust_secure_scheme. reflexivity.
  - right. eexists. reflexivity.
Defined.

(** X11. A write is not undone when the chmod after it fails: clear-trust on
    an existing file then returns status 1, yet the file already holds the
    empty store, with the mode it had before. *)
Theorem failed_chmod_keeps_the_write (env : Env) (args : Args) (c : content)
    (m : Z) :
  open_write_ok env = true ->
  chmod_ok env = false ->
  let r := run (_clearTrust env args) (Some (File c m)) in
  status r = Return 1 /\
  file_after r = Some (File (Json (PDict ∅)) m).
Proof. intros Hw Hc. py_run. auto. Qed.

Lemma failed_chmod_keeps_the_write_witness :
  let r := run (_clearTrust (faulty_env None None true true false)
                  (sample_args "https://a.example" false))
               (sample_file {[ "https://a.example" := PStr "CERT" ]} 384) in
  status r = Return 1 /\
  file_after r = Some (File (Json (PDict ∅)) 384).
Proof.
  apply (failed_chmod_keeps_the_write (faulty_env None None true true false)
           (sample_args "https://a.example" false)); reflexivity.
Defined.

(** X5. uninstall-cert, enable-trust and clear-trust never create a trust
    file that is missing: they return status 0, the file is still missing and
    nothing was opened. *)
Theorem missing_file_not_created (env : Env) (op : operation) (args : Args) :
  op = uninstall_cert \/ op = enable_trust \/ op = clear_trust ->
  let r := run (main env op args) None in
  status r = Return 0 /\
  file_after r = None /\
  existsb writes_file (trace_of r) = false.
Proof. intros [ -> | [ -> | -> ] ]; py_run; auto. Qed.

Lemma missing_file_not_created_witness :
  let r := run (main (sample_env None None) uninstall_cert
                  (sample_args "https://a.example" false)) None in
  status r = Return 0 /\
  file_after r = None /\
  existsb writes_file (trace_of r) = false.
Proof.
  apply (missing_file_not_created (sample_env None None) uninstall_cert
           (sample_args "https://a.example" false)).
  left. reflexivity.
Defined.

(** ** What the operations write *)

(** X12. A confirmed install-cert replaces whatever the store held for the
    URL, the TrustDisabled marker included, by the fetched certificate: the
    URL then maps to the PEM text and the file has the mode 0o644. *)
Theorem pin_replaces_any_entry (env : Env) (args : Args) (f : option file)
    (parts : ParseResult) (pem : string) (d : gmap string pyval) :
  secure_scheme (url args) ->
  urlparse env (url args) = Some parts ->
  status (run (fetch_certificate env parts) f) = Return pem ->
  confirmed env args ->
  io_ok env ->
  loaded_store f = Some (PDict d) ->
  let r := run (_installCert env args) f in
  status r = Return 0 /\
  file_after r =
    Some (File (Json (PDict (<[url args := PStr pem]> d))) _TRUST_PERMISSIONS).
Proof.
  intros Hs%needsTrust_secure_scheme Hp Hf Hy Hio Hd.
  now apply installCert_pins with (parts := parts).
Qed.

Lemma pin_replaces_any_entry_witness :
  let env := sample_env (Some "CERT") (Some "y") in
  let args := sample_args "https://a.example" false in
  let d : gmap string pyval := {[ "https://a.example" := PStr "AnyCertificate" ]} in
  let r := run (_installCert env args) (sample_file d 384) in
  status r = Return 0 /\
  file_after r =
    Some (File (Json (PDict (<[url args := PStr "CERT"]> d))) _TRUST_PERMISSIONS).
Proof.
  apply (pin_replaces_any_entry (sample_env (Some "CERT") (Some "y"))
           (sample_args "https://a.example" false)
           (sample_file {[ "https://a.example" := PStr "AnyCertificate" ]} 384)
           sample_parts "CERT").
  - apply needsTrust_secure_scheme. reflexivity.
  - reflexivity.
  - reflexivity.
  - right. exists "y". split; reflexivity.
  - repeat split.
  - reflexivity.
Defined.

(** X13. uninstall-cert removes an entry that is not the marker, and
    enable-trust removes an entry that is the marker: the status is 0, the URL
    has no entry afterwards, and the file has the mode 0o644. *)
Theorem unpin_and_enable_remove_their_kind (env : Env) (args : Args)
    (d1 d2 : gmap string pyval) (m1 m2 : Z) (v : pyval) :
  io_ok env ->
  d1 !! url args = Some v ->
  v <> PStr _DISABLED_MARKER ->
  d2 !! url args = Some (PStr _DISABLED_MARKER) ->
  let r1 := run (_uninstallCert env args) (Some (File (Json (PDict d1)) m1)) in
  let r2 := run (_enableTrust env args) (Some (File (Json (PDict d2)) m2)) in
  (status r1 = Return 0 /\
   file_after r1 =
     Some (File (Json (PDict (delete (url args) d1))) _TRUST_PERMISSIONS)) /\
  (status r2 = Return 0 /\
   file_after r2 =
     Some (File (Json (PDict (delete (url args) d2))) _TRUST_PERMISSIONS)).
Proof.
  intros Hio H1 Hv%py_eq_str_false H2. split.
  - now apply uninstall_removes with (v := v).
  - now apply enable_removes.
Qed.

Lemma unpin_and_enable_remove_their_kind_witness :
  let env := sample_env None None in
  let args := sample_args "https://a.example" false in
  let d1 : gmap string pyval := {[ "https://a.example" := PStr "CERT" ]} in
  let d2 : gmap string pyval := {[ "https://a.example" := PStr "AnyCertificate" ]} in
  let r1 := run (_uninstallCert env args) (Some (File (Json (PDict d1)) 384)) in
  let r2 := run (_enableTrust env args) (Some (File (Json (PDict d2)) 384)) in
  (status r1 = Return 0 /\
   file_after r1 =
     Some (File (Json (PDict (delete (url args) d1))) _TRUST_PERMISSIONS)) /\
  (status r2 = Return 0 /\
   file_after r2 =
     Some (File (Json (PDict (delete (url args) d2))) _TRUST_PERMISSIONS)).
Proof.
  apply (unpin_and_enable_remove_their_kind (sample_env None None)
           (sample_args "https://a.example" false)
           {[ "https://a.example" := PStr "CERT" ]}
           {[ "https://a.example" := PStr "AnyCertificate" ]}
           384 384 (PStr "CERT")).
  - repeat split.
  - reflexivity.
  - discriminate.
  - reflexivity.
Defined.

(** disable-trust on a secure URL ends with the marker, whatever was there. *)
Lemma disable_result (env : Env) (args : Args) (f : option file)
    (d : gmap string pyval) :
  _needsTrust (Some (url args)) = true ->
  io_ok env ->
  loaded_store f = Some (PDict d) ->
  let r := run (_disableTrust env args) f in
  status r = Return 0 /\
  loaded_store (file_after r) =
    Some (PDict (<[url args := PStr _DISABLED_MARKER]> d)).
Proof.
  intros Hs Hio Hd.
  destruct (d !! url args) as [v|] eqn:Hv;
    [destruct (py_eq_str v _DISABLED_MARKER) eqn:Hm|].
  - apply py_eq_str_true in Hm as ->.
    apply loaded_store_dict in Hd as [[-> ->]|[(m & -> & ->)|(m & ->)]];
      try (rewrite lookup_empty in Hv; discriminate).
    destruct (disable_already env args d m Hv) as (H0 & H1 & _);
      [apply Hio|].
    cbn zeta. rewrite H0, H1. cbn. now rewrite insert_id.
  - apply py_eq_str_false in Hm.
    destruct (disable_sets_marker env args f d) as (H0 & H1 & _); auto;
      [congruence|].
    cbn zeta. now rewrite H0, H1.
  - destruct (disable_sets_marker env args f d) as (H0 & H1 & _); auto;
      [congruence|].
    cbn zeta. now rewrite H0, H1.
Qed.

(** X14. disable-trust on a secure URL leaves the store with the marker for
    that URL, whatever the URL held and also when the trust file is missing
    or holds null (the file is then created). *)
Theorem disable_sets_marker_on_any_store (env : Env) (args : Args)
    (f : option file) (d : gmap string pyval) :
  secure_scheme (url args) ->
  io_ok env ->
  loaded_store f = Some (PDict d) ->
  let r := run (_disableTrust env args) f in
  status r = Return 0 /\
  loaded_store (file_after r) =
    Some (PDict (<[url args := PStr _DISABLED_MARKER]> d)).
Proof.
  intros Hs%needsTrust_secure_scheme Hio Hd. now apply disable_result.
Qed.

Lemma disable_sets_marker_on_any_store_witness :
  let args := sample_args "https://a.example" false in
  let r := run (_disableTrust (sample_env None None) args) None in
  status r = Return 0 /\
  loaded_store (file_after r) =
    Some (PDict (<[url args := PStr _DISABLED_MARKER]> ∅)).
Proof.
  apply (disable_sets_marker_on_any_store (sample_env None None)
           (sample_args "https://a.example" false) None ∅).
  - apply needsTrust_secure_scheme. reflexivity.
  - repeat split.
  - reflexivity.
Defined.

(** X15. disable-trust followed by enable-trust on a secure URL leaves the
    store without an entry for the URL, whatever the URL held before: a
    pinned certificate does not come back, and a store that had no entry for
    the URL is again what it was. *)
Theorem disable_then_enable_drops_entry (env : Env) (args : Args)
    (f : option file) (d : gmap string pyval) :
  secure_scheme (url args) ->
  io_ok env ->
  loaded_store f = Some (PDict d) ->
  let r1 := run (_disableTrust env args) f in
  let r2 := run (_enableTrust env args) (file_after r1) in
  status r1 = Return 0 /\
  status r2 = Return 0 /\
  loaded_store (file_after r2) = Some (PDict (delete (url args) d)) /\
  (d !! url args = None -> loaded_store (file_after r2) = loaded_store f).
Proof.
  intros Hs%needsTrust_secure_scheme Hio Hd.
  destruct (disable_result env args f d Hs Hio Hd) as [H0 H1].
  cbn zeta. split; [exact H0|].
  apply loaded_store_dict in H1 as [[E _]|[(m & E & _)|(m & E)]].
  - (* the file cannot be missing after a write *)
    exfalso. clear -Hs Hio Hd E. destruct Hio as (Hr & Hw & Hc).
    apply loaded_store_dict in Hd as [[-> ->]|[(m & -> & ->)|(m & ->)]];
      revert E; py_all_cases; discriminate.
  - exfalso. clear -Hs Hio Hd E. destruct Hio as (Hr & Hw & Hc).
    apply loaded_store_dict in Hd as [[-> ->]|[(m' & -> & ->)|(m' & ->)]];
      revert E; py_all_cases; discriminate.
  - rewrite E.
    destruct (enable_removes env args
                (<[url args := PStr _DISABLED_MARKER]> d) m) as [H2 H3];
      [apply lookup_insert_eq | exact Hio |].
    rewrite H2, H3. cbn. rewrite delete_insert_eq.
    split; [reflexivity|]. split; [reflexivity|].
    intros Hn. now rewrite delete_id, Hd.
Qed.

Lemma disable_then_enable_drops_entry_witness :
  let env := sample_env None None in
  let args := sample_args "https://a.example" false in
  let d : gmap string pyval := {[ "https://a.example" := PStr "CERT" ]} in
  let r1 := run (_disableTrust env args) (sample_file d 420) in
  let r2 := run (_enableTrust env args) (file_after r1) in
  status r1 = Return 0 /\
  status r2 = Return 0 /\
  loaded_store (file_after r2) = Some (PDict (delete (url args) d)) /\
  (d !! url args = None ->
   loaded_store (file_after r2) = loaded_store (sample_file d 420)).
Proof.
  apply (disable_then_enable_drops_entry (sample_env None None)
           (sample_args "https://a.example" false)
           (sample_file {[ "https://a.example" := PStr "CERT" ]} 420)).
  - apply needsTrust_secure_scheme. reflexivity.
  - repeat split.
  - reflexivity.
Defined.

(** ** The network and the console *)

(** X16. When [urlparse] rejects a secure URL, install-cert returns status 1
    after one warning that names the URL: it connects to no host, does not
    prompt, and does not look for the trust file. *)
Theorem unparsable_url_fails_early (env : Env) (args : Args)
    (f : option file) :
  secure_scheme (url args) ->
  urlparse env (url args) = None ->
  run (_installCert env args) f =
    (Return 1,
     {| fs := f; trace := [LogWarning (CouldntParseURL (url args))] |}).
Proof.
  intros Hs%needsTrust_secure_scheme Hp. py_run. reflexivity.
Qed.

Lemma unparsable_url_fails_early_witness :
  let args := sample_args "https://[a.example" true in
  run (_installCert unparsable_env args) None =
    (Return 1,
     {| fs := None; trace := [LogWarning (CouldntParseURL (url args))] |}).
Proof.
  apply (unparsable_url_fails_early unparsable_env
           (sample_args "https://[a.example" true) None).
  - apply needsTrust_secure_scheme. reflexivity.
  - reflexivity.
Defined.

(** X17. A run makes at most one connection, with the timeout of 10 seconds:
    there is no second attempt.  It goes to the host of the URL, on the port
    of the URL or on 443 when the URL has none. *)
Theorem at_most_one_connection (env : Env) (op : operation) (args : Args)
    (f : option file) :
  let r := run (main env op args) f in
  List.filter is_connect (trace_of r) = [] \/
  exists parts p,
    urlparse env (url args) = Some parts /\
    port parts = PortIs p /\
    List.filter is_connect (trace_of r) =
      [Connect (hostname parts) (default 443 p) _CERT_GET_TIMEOUT].
Proof.
  destruct op; (destruct f as [[[v|t] m]|]; [destruct v|..]); py_all_cases;
    auto; right; do 2 eexists; (split; [reflexivity|]);
    (split; [eassumption|]); reflexivity.
Qed.

(** X18. Only install-cert without [-y] asks the user: with [-y], or with any
    other operation, nothing is read from the console. *)
Theorem no_prompt_with_yes (env : Env) (op : operation) (args : Args)
    (f : option file) :
  y args = true \/ op <> install_cert ->
  existsb is_prompt (trace_of (run (main env op args) f)) = false.
Proof.
  intros H.
  assert (Hk : op = install_cert -> y args = true).
  { intros ->. destruct H; congruence. }
  clear H.
  destruct op; try specialize (Hk eq_refl);
    (destruct f as [[[v|t] m]|]; [destruct v|..]); py_all_cases; auto.
Qed.

Lemma no_prompt_with_yes_witness :
  existsb is_prompt
    (trace_of (run (main (sample_env (Some "CERT") (Some "n")) install_cert
                      (sample_args "https://a.example" true)) None)) = false.
Proof.
  apply (no_prompt_with_yes (sample_env (Some "CERT") (Some "n")) install_cert
           (sample_args "https://a.example" true) None).
  left. reflexivity.
Defined.

(** X19. The read of the answer is not guarded: when install-cert without
    [-y] has fetched a certificate and the console is closed, [EOFError]
    leaves the operation.  By then the run has connected, logged the PEM text
    and prompted, and has not looked for the trust file, which is as it
    was. *)
Theorem closed_console_escapes (env : Env) (args : Args) (f : option file)
    (parts : ParseResult) (p : option Z) (pem : string) :
  secure_scheme (url args) ->
  urlparse env (url args) = Some parts ->
  port parts = PortIs p ->
  peer_certificate env (hostname parts) (default 443 p) = Some pem ->
  y args = false ->
  console env = None ->
  run (_installCert env args) f =
    (Raise EOFError,
     {| fs := f;
        trace := [Connect (hostname parts) (default 443 p) _CERT_GET_TIMEOUT;
                  LogInfo (PEMEncoding (url args) pem);
                  Prompt] |}).
Proof.
  intros Hs%needsTrust_secure_scheme Hp Hport Hc Hy Hn.
  destruct p; cbn in Hc; py_run; reflexivity.
Qed.

Lemma closed_console_escapes_witness :
  let args := sample_args "https://a.example" false in
  run (_installCert (sample_env (Some "CERT") None) args) None =
    (Raise EOFError,
     {| fs := None;
        trace := [Connect (Some "a.example") 443 _CERT_GET_TIMEOUT;
                  LogInfo (PEMEncoding (url args) "CERT");
                  Prompt] |}).
Proof.
  apply (closed_console_escapes (sample_env (Some "CERT") None)
           (sample_args "https://a.example" false) None sample_parts None
           "CERT").
  - apply needsTrust_secure_scheme. reflexivity.
  - reflexivity.
  - reflexivity.
  - reflexivity.
  - reflexivity.
  - reflexivity.
Defined.

(** X20. An exception that leaves an operation leaves the trust file alone:
    the file is as it was, and the run has not looked for it, opened it or
    chmod-ed it. *)
Theorem escaping_exception_spares_file (env : Env) (op : operation)
    (args : Args) (f : option file) (e : exn) :
  let r := run (main env op args) f in
  status r = Raise e ->
  file_after r = f /\ existsb touches_file (trace_of r) = false.
Proof.
  destruct op; (destruct f as [[[v|t] m]|]; [destruct v|..]); py_all_cases;
    intros _; auto.
Qed.

Lemma escaping_exception_spares_file_witness :
  let f := sample_file {[ "https://b.example" := PStr "CERT" ]} 384 in
  let r := run (main (sample_env None None) install_cert
                  (sample_args "https://a.example" true)) f in
  file_after r = f /\ existsb touches_file (trace_of r) = false.
Proof.
  apply (escaping_exception_spares_file (sample_env None None) install_cert
           (sample_args "https://a.example" true)
           (sample_file {[ "https://b.example" := PStr "CERT" ]} 384)
           NameError).
  reflexivity.
Defined.
